(** * The query review workspace (admin console, [components/query/workspace.tsx])

    A shallow embedding of the [QueryWorkspace] React component: its hook
    state, the closures a render creates ([handleSqlChange],
    [handleVerifyChange], [handleRunQuery], [handleSaveQuery]), the asynchronous
    bodies of the two handlers with their [try]/[catch]/[finally] blocks, and
    the element tree the component returns as far as it decides what is shown.

    Conventions of the embedding.
    - A render is a function of the props and of the hook state; the state is
      passed explicitly ([State]) and a state setter takes effect at once, so
      the handlers a button carries are those of the latest state.
    - A handler is a JavaScript closure: it is represented by the variables of
      the render it captured ([Closure]).
    - An [async] body is a finite tree of effects ([Prog]) that suspends at
      [await]; the collaborators ([onExecuteQuery], [onPatchQuery]) and the
      toast store are external and appear as recorded calls, pending tasks and
      emitted toasts of a [World]. *)

From Stdlib Require Import String List ZArith Bool Lia.
Import ListNotations.
Open Scope string_scope.
Open Scope list_scope.
Set Warnings "-register-all".

(** ** JavaScript values, as the API delivers them at run time *)

Inductive JsVal : Type :=
| JsNull
| JsUndefined
| JsNaN
| JsBool (b : bool)
| JsNumber (n : Z)
| JsString (s : string)
| JsArray (items : list JsVal)
| JsObject (fields : list (string * JsVal)).

(** Evaluation either completes normally or throws. *)
Inductive Completion (A : Type) : Type :=
| Normal (a : A)
| TypeError (message : string).
Arguments Normal {A} a.
Arguments TypeError {A} message.

Definition bindC {A B} (c : Completion A) (k : A -> Completion B) : Completion B :=
  match c with
  | Normal a => k a
  | TypeError m => TypeError m
  end.

Declare Scope js_scope.
Delimit Scope js_scope with js.
Notation "'let?' x ':=' c 'in' k" := (bindC c (fun x => k))
  (at level 10, x name, c at level 100, k at level 200) : js_scope.

(** [ToBoolean]: what [v ? a : b] and [v && e] test. *)
Definition truthy (v : JsVal) : bool :=
  match v with
  | JsNull | JsUndefined | JsNaN => false
  | JsBool b => b
  | JsNumber n => negb (n =? 0)%Z
  | JsString s => negb (s =? "")
  | JsArray _ | JsObject _ => true
  end.

(** [v === null] *)
Definition strict_eq_null (v : JsVal) : bool :=
  match v with
  | JsNull => true
  | _ => false
  end.

Fixpoint own_property (name : string) (fields : list (string * JsVal)) : option JsVal :=
  match fields with
  | [] => None
  | (k, v) :: rest => if k =? name then Some v else own_property name rest
  end.

(** [v.name] for a data property: reading a property of [null] or [undefined]
    throws, a missing property reads as [undefined]. *)
Definition get (v : JsVal) (name : string) : Completion JsVal :=
  match v with
  | JsNull => TypeError "Cannot read properties of null"
  | JsUndefined => TypeError "Cannot read properties of undefined"
  | JsObject fields =>
      Normal (match own_property name fields with
              | Some x => x
              | None => JsUndefined
              end)
  | JsArray items =>
      Normal (if name =? "length" then JsNumber (Z.of_nat (length items)) else JsUndefined)
  | JsString s =>
      Normal (if name =? "length" then JsNumber (Z.of_nat (String.length s)) else JsUndefined)
  | JsNaN | JsBool _ | JsNumber _ => Normal JsUndefined
  end.

(** [v.map(f)]: only an array has the method. *)
Definition array_map {A} (v : JsVal) (f : JsVal -> A) : Completion (list A) :=
  match v with
  | JsArray items => Normal (map f items)
  | JsNull | JsUndefined => TypeError "Cannot read properties of undefined (reading 'map')"
  | _ => TypeError "map is not a function"
  end.

(** [string | null], tested by truthiness. *)
Definition truthy_message (m : option string) : bool :=
  match m with
  | Some s => negb (s =? "")
  | None => false
  end.

Section Workspace.

(** [QueryStatus] is imported from [@/models/api]; the component only reads,
    stores and forwards it. *)
Context {QueryStatus : Type}.

(** ** Props: the query record ([Query] of [@/models/api]) *)

(** The fields the component destructures.  [sql_query_result] is declared
    [{ columns, rows } | null]; it is kept as a run-time value because the
    render tests it with [=== null] and with [&&]. *)
Record Query : Type := {
  question : string;
  question_date : string;
  nl_response : string;
  username : string;
  sql_query : string;
  sql_query_result : JsVal;
  sql_error_message : option string;
  status : QueryStatus;
  ai_process : list JsVal;
  last_updated : string
}.

(** ** Hook state: the four [useState] cells *)

Record State : Type := {
  currentSqlQuery : string;
  verifiedStatus : QueryStatus;
  savingQuery : bool;
  loadingQueryResults : bool
}.

(** [useState(sql_query)], [useState(status)], [useState(false)] twice: the
    initial values are read at mount only. *)
Definition mount_state (query : Query) : State :=
  {| currentSqlQuery := sql_query query;
     verifiedStatus := status query;
     savingQuery := false;
     loadingQueryResults := false |}.

(** ** Closures and collaborator calls *)

(** The argument object of [onPatchQuery]. *)
Record Patches : Type := {
  patch_sql_query : string;
  patch_query_status : QueryStatus
}.

Inductive Call : Type :=
| onExecuteQuery (sql_query : string)
| onPatchQuery (patches : Patches).

(** A handler function value, given by the render variables it closes over. *)
Inductive Closure : Type :=
| HandleRunQuery (currentSqlQuery : string)
| HandleSaveQuery (currentSqlQuery : string) (verifiedStatus : QueryStatus).

(** ** Toasts *)

Inductive Variant : Type := success | destructive.

Record ToastAction : Type := {
  altText : string;
  action_onClick : Closure
}.

Record Toast : Type := {
  variant : Variant;
  title : string;
  description : option string;
  action : option ToastAction
}.

(** ** The rendered tree *)

Record ColumnDef : Type := {
  id : JsVal;
  header : JsVal;
  accessorKey : JsVal
}.

Record Button : Type := {
  disabled : bool;
  onClick : Closure;
  caption : string
}.

(** Content of the [query_results] box. *)
Inductive QueryResults : Type :=
| NoResults
| SqlResultsTable (columns : list ColumnDef) (data : JsVal).

(** The child [{sql_query_result && (<div id="nl_response">...)}]: the answer
    block, or the falsy value itself. *)
Inductive AnswerSlot : Type :=
| Answer (text : string)
| Falsy (v : JsVal).

(** The outer conditional below the tabs. *)
Inductive ResultsView : Type :=
| LoadingQueryResults
| SqlErrorBanner (message : string)
| ResultsPanel (query_results : QueryResults) (nl_response_slot : AnswerSlot).

Record View : Type := {
  save_button : Button;
  run_button : Button;
  verify_select_value : QueryStatus;
  editor_initialQuery : string;
  process_steps : list JsVal;
  results : ResultsView
}.

Definition render_save_button (s : State) : Button :=
  {| disabled := savingQuery s;
     onClick := HandleSaveQuery (currentSqlQuery s) (verifiedStatus s);
     caption := if savingQuery s then "Saving" else "Save" |}.

Definition render_run_button (s : State) : Button :=
  {| disabled := loadingQueryResults s;
     onClick := HandleRunQuery (currentSqlQuery s);
     caption := if loadingQueryResults s then "Running" else "Run" |}.

Definition column_of (columnKey : JsVal) : ColumnDef :=
  {| id := columnKey; header := columnKey; accessorKey := columnKey |}.

(** [sql_query_result === null ? <No Results/> : <SqlResultsTable .../>] *)
Definition render_query_results (sql_query_result : JsVal) : Completion QueryResults :=
  if strict_eq_null sql_query_result then Normal NoResults
  else
    (let? cols := get sql_query_result "columns" in
     let? columns := array_map cols column_of in
     let? rows := get sql_query_result "rows" in
     Normal (SqlResultsTable columns rows))%js.

(** [sql_query_result && <div id="nl_response">...{nl_response}</div>] *)
Definition render_answer (sql_query_result : JsVal) (nl_response : string) : AnswerSlot :=
  if truthy sql_query_result then Answer nl_response else Falsy sql_query_result.

(** The three-way conditional of the results area. *)
Definition render_results (query : Query) (s : State) : Completion ResultsView :=
  if loadingQueryResults s then Normal LoadingQueryResults
  else if truthy_message (sql_error_message query) then
    Normal (SqlErrorBanner (match sql_error_message query with
                            | Some m => m
                            | None => ""
                            end))
  else
    (let? table := render_query_results (sql_query_result query) in
     Normal (ResultsPanel table
               (render_answer (sql_query_result query) (nl_response query))))%js.

(** The component body: one render for the given props and hook state. *)
Definition QueryWorkspace (query : Query) (s : State) : Completion View :=
  (let? r := render_results query s in
   Normal {| save_button := render_save_button s;
             run_button := render_run_button s;
             verify_select_value := verifiedStatus s;
             editor_initialQuery := currentSqlQuery s;
             process_steps := ai_process query;
             results := r |})%js.

(** ** Asynchronous handler bodies *)

(** How the promise of a collaborator call settles. *)
Inductive Settled : Type :=
| Resolved (value : JsVal)
| Rejected (reason : JsVal).

(** What a handler can do besides calling a collaborator: the four state
    setters and [toast] of [useToast]. *)
Inductive Effect : Type :=
| setCurrentSqlQuery (value : string)
| setVerifiedStatus (value : QueryStatus)
| setSavingQuery (value : bool)
| setLoadingQueryResults (value : bool)
| toast (t : Toast).

(** An [async] function body: it returns, throws, performs an effect and goes
    on, or calls a collaborator and suspends until the promise settles. *)
Inductive Prog (A : Type) : Type :=
| Ret (a : A)
| Throw (e : JsVal)
| Do (eff : Effect) (k : Prog A)
| Await (c : Call) (k : Settled -> Prog A).
Arguments Ret {A} a.
Arguments Throw {A} e.
Arguments Do {A} eff k.
Arguments Await {A} c k.

Fixpoint bind {A B} (p : Prog A) (f : A -> Prog B) : Prog B :=
  match p with
  | Ret a => f a
  | Throw e => Throw e
  | Do eff k => Do eff (bind k f)
  | Await c k => Await c (fun o => bind (k o) f)
  end.

(** [try { p } catch (e) { h e }] *)
Fixpoint catch {A} (p : Prog A) (h : JsVal -> Prog A) : Prog A :=
  match p with
  | Ret a => Ret a
  | Throw e => h e
  | Do eff k => Do eff (catch k h)
  | Await c k => Await c (fun o => catch (k o) h)
  end.

(** [try { p } finally { fin }]: [fin] runs on both exits and the completion
    of [p] is kept, unless [fin] itself throws. *)
Fixpoint finally {A} (p : Prog A) (fin : Prog unit) : Prog A :=
  match p with
  | Ret a => bind fin (fun _ => Ret a)
  | Throw e => bind fin (fun _ => Throw e)
  | Do eff k => Do eff (finally k fin)
  | Await c k => Await c (fun o => finally (k o) fin)
  end.

Definition perform (eff : Effect) : Prog unit := Do eff (Ret tt).

(** [await c]: the value on resolution, a throw on rejection. *)
Definition await (c : Call) : Prog JsVal :=
  Await c (fun o => match o with
                    | Resolved v => Ret v
                    | Rejected e => Throw e
                    end).

Notation "p ;; q" := (bind p (fun _ => q))
  (at level 61, right associativity).
Notation "'TRY' b 'CATCH' h 'FINALLY' f" := (finally (catch b h) f)
  (at level 10, b at level 100, h at level 100, f at level 100).

(** *** The handlers of the component *)

Definition handleSqlChange (value : string) : Prog unit :=
  perform (setCurrentSqlQuery value).

Definition handleVerifyChange (verifiedStatus : QueryStatus) : Prog unit :=
  perform (setVerifiedStatus verifiedStatus).

(** [handleRunQuery] as created by a render whose [currentSqlQuery] is the
    argument; the retry action of the failure toast is this very closure. *)
Definition handleRunQuery (currentSqlQuery : string) : Prog unit :=
  perform (setLoadingQueryResults true) ;;
  TRY
    (await (onExecuteQuery currentSqlQuery) ;;
     perform (toast {| variant := success;
                       title := "Query executed!";
                       description := None;
                       action := None |}))
  CATCH
    (fun e =>
     perform (toast {| variant := destructive;
                       title := "Ups! Something went wrong.";
                       description := Some "There was a problem with running your query";
                       action := Some {| altText := "Try again";
                                         action_onClick := HandleRunQuery currentSqlQuery |} |}))
  FINALLY
    perform (setLoadingQueryResults false).

(** [handleSaveQuery] as created by a render with the given [currentSqlQuery]
    and [verifiedStatus]. *)
Definition handleSaveQuery (currentSqlQuery : string) (verifiedStatus : QueryStatus)
  : Prog unit :=
  TRY
    (perform (setSavingQuery true) ;;
     await (onPatchQuery {| patch_query_status := verifiedStatus;
                            patch_sql_query := currentSqlQuery |}) ;;
     perform (toast {| variant := success;
                       title := "Saved!";
                       description :=
                         Some "Your changes over the query were successfully applied";
                       action := None |}))
  CATCH
    (fun e =>
     perform (toast {| variant := destructive;
                       title := "Ups! Something went wrong.";
                       description := Some "There was a problem with saving your query";
                       action := Some {| altText := "Try again";
                                         action_onClick :=
                                           HandleSaveQuery currentSqlQuery verifiedStatus |} |}))
  FINALLY
    perform (setSavingQuery false).

(** Calling a handler function value. *)
Definition invoke (h : Closure) : Prog unit :=
  match h with
  | HandleRunQuery sql => handleRunQuery sql
  | HandleSaveQuery sql st => handleSaveQuery sql st
  end.

(** ** The component in its environment *)

(** A suspended handler: the call it awaits and the rest of its body. *)
Record Task : Type := {
  task_call : Call;
  task_resume : Settled -> Prog unit
}.

Record World : Type := {
  query : Query;            (* the props of the latest render *)
  hooks : State;            (* the hook state *)
  calls : list Call;        (* every collaborator call started, oldest first *)
  pending : list Task;      (* the calls in flight *)
  toasts : list Toast       (* every toast emitted, oldest first *)
}.

Definition mount (q : Query) : World :=
  {| query := q; hooks := mount_state q; calls := []; pending := []; toasts := [] |}.

Definition set_hooks (s : State) (w : World) : World :=
  {| query := query w; hooks := s; calls := calls w;
     pending := pending w; toasts := toasts w |}.

Definition apply_effect (eff : Effect) (w : World) : World :=
  let s := hooks w in
  match eff with
  | setCurrentSqlQuery v =>
      set_hooks {| currentSqlQuery := v; verifiedStatus := verifiedStatus s;
                   savingQuery := savingQuery s;
                   loadingQueryResults := loadingQueryResults s |} w
  | setVerifiedStatus v =>
      set_hooks {| currentSqlQuery := currentSqlQuery s; verifiedStatus := v;
                   savingQuery := savingQuery s;
                   loadingQueryResults := loadingQueryResults s |} w
  | setSavingQuery b =>
      set_hooks {| currentSqlQuery := currentSqlQuery s;
                   verifiedStatus := verifiedStatus s;
                   savingQuery := b;
                   loadingQueryResults := loadingQueryResults s |} w
  | setLoadingQueryResults b =>
      set_hooks {| currentSqlQuery := currentSqlQuery s;
                   verifiedStatus := verifiedStatus s;
                   savingQuery := savingQuery s;
                   loadingQueryResults := b |} w
  | toast t =>
      {| query := query w; hooks := hooks w; calls := calls w;
         pending := pending w; toasts := toasts w ++ [t] |}
  end.

(** Run a body up to its end or to its next [await].  A throw that reaches the
    top rejects the promise of the handler, which nobody observes. *)
Fixpoint run (p : Prog unit) (w : World) : World :=
  match p with
  | Ret _ => w
  | Throw _ => w
  | Do eff k => run k (apply_effect eff w)
  | Await c k =>
      {| query := query w; hooks := hooks w;
         calls := calls w ++ [c];
         pending := pending w ++ [{| task_call := c; task_resume := k |}];
         toasts := toasts w |}
  end.

Fixpoint remove_nth {A} (n : nat) (l : list A) : list A :=
  match n, l with
  | _, [] => []
  | O, _ :: rest => rest
  | S m, x :: rest => x :: remove_nth m rest
  end.

(** What can happen to a mounted component. *)
Inductive Event : Type :=
| EditSql (value : string)               (* [SqlEditor] calls [onValueChange] *)
| SelectStatus (value : QueryStatus)     (* [QueryVerifySelect] calls [onValueChange] *)
| ClickRun
| ClickSave
| ClickToastAction (n : nat)             (* the action of the n-th toast *)
| Settle (n : nat) (o : Settled)         (* the n-th call in flight settles *)
| Rerender (q : Query).                  (* the parent passes a new record *)

(** A disabled button ignores clicks.  The events are those of a mounted
    component; what the two buttons carry depends on the hook state only. *)
Definition click (b : Button) (w : World) : World :=
  if disabled b then w else run (invoke (onClick b)) w.

Definition step (e : Event) (w : World) : World :=
  match e with
  | EditSql value => run (handleSqlChange value) w
  | SelectStatus value => run (handleVerifyChange value) w
  | ClickRun => click (render_run_button (hooks w)) w
  | ClickSave => click (render_save_button (hooks w)) w
  | ClickToastAction n =>
      match nth_error (toasts w) n with
      | Some {| action := Some a |} => run (invoke (action_onClick a)) w
      | _ => w
      end
  | Settle n o =>
      match nth_error (pending w) n with
      | Some t =>
          run (task_resume t o)
              {| query := query w; hooks := hooks w; calls := calls w;
                 pending := remove_nth n (pending w); toasts := toasts w |}
      | None => w
      end
  | Rerender q =>
      {| query := q; hooks := hooks w; calls := calls w;
         pending := pending w; toasts := toasts w |}
  end.

Definition steps (es : list Event) (w : World) : World :=
  fold_left (fun w e => step e w) es w.

(** ** Vocabulary of the statements *)

(** The collaborator call a handler closure makes, by its captured variables. *)
Definition call_of (h : Closure) : Call :=
  match h with
  | HandleRunQuery sql => onExecuteQuery sql
  | HandleSaveQuery sql st =>
      onPatchQuery {| patch_sql_query := sql; patch_query_status := st |}
  end.

(** The busy flag a handler sets and resets. *)
Definition busy (h : Closure) (s : State) : bool :=
  match h with
  | HandleRunQuery _ => loadingQueryResults s
  | HandleSaveQuery _ _ => savingQuery s
  end.

(** The failure toast a handler emits; its action is the handler itself. *)
Definition is_failure_toast_of (h : Closure) (t : Toast) : Prop :=
  variant t = destructive /\
  action t = Some {| altText := "Try again"; action_onClick := h |}.

(** The task a body suspends in, if it reaches an [await]. *)
Fixpoint first_await (p : Prog unit) : option Task :=
  match p with
  | Ret _ | Throw _ => None
  | Do _ k => first_await k
  | Await c k => Some {| task_call := c; task_resume := k |}
  end.

(** [P] holds of the world in which the body ends, whatever the outcome of
    each awaited call and whatever happened to the world while it was
    suspended. *)
Fixpoint finishes_with (P : World -> Prop) (p : Prog unit) (w : World) : Prop :=
  match p with
  | Ret _ | Throw _ => P w
  | Do eff k => finishes_with P k (apply_effect eff w)
  | Await _ k => forall (o : Settled) (w' : World), finishes_with P (k o) w'
  end.

(** A suspended task that, resumed, starts no call and suspends no more. *)
Definition quiet (t : Task) : Prop :=
  forall (o : Settled) (w : World),
    calls (run (task_resume t o) w) = calls w /\
    pending (run (task_resume t o) w) = pending w.

Definition reachable (w : World) : Prop :=
  exists (q : Query) (es : list Event), w = steps es (mount q).

(** The events that call [handleRunQuery] or [handleSaveQuery]: the two
    buttons and the retry action of a toast. *)
Definition is_run_or_save_action (e : Event) : bool :=
  match e with
  | ClickRun | ClickSave | ClickToastAction _ => true
  | _ => false
  end.

Definition shows_loading (v : ResultsView) : bool :=
  match v with LoadingQueryResults => true | _ => false end.

Definition shows_error_banner (v : ResultsView) : bool :=
  match v with SqlErrorBanner _ => true | _ => false end.

Definition shows_results_or_empty (v : ResultsView) : bool :=
  match v with ResultsPanel _ _ => true | _ => false end.

Definition exactly_one (a b c : bool) : bool :=
  match a, b, c with
  | true, false, false | false, true, false | false, false, true => true
  | _, _, _ => false
  end.

(** The values of the declared type of [sql_query_result]: [null], or an object
    whose [columns] is an array. *)
Definition well_typed_result (v : JsVal) : bool :=
  match v with
  | JsNull => true
  | JsObject fields =>
      match own_property "columns" fields with
      | Some (JsArray _) => true
      | _ => false
      end
  | _ => false
  end.

(** ** Vocabulary of the invariants *)

Definition is_execute (c : Call) : bool :=
  match c with
  | onExecuteQuery _ => true
  | onPatchQuery _ => false
  end.

Definition is_patch (c : Call) : bool :=
  match c with
  | onExecuteQuery _ => false
  | onPatchQuery _ => true
  end.

(** The SQL text a call carries. *)
Definition call_sql (c : Call) : string :=
  match c with
  | onExecuteQuery sql => sql
  | onPatchQuery p => patch_sql_query p
  end.

(** How many calls of one kind are in flight. *)
Definition in_flight (kind : Call -> bool) (w : World) : nat :=
  length (filter (fun t => kind (task_call t)) (pending w)).

(** The hook state with the busy flag of a handler written. *)
Definition set_busy (h : Closure) (b : bool) (s : State) : State :=
  match h with
  | HandleRunQuery _ =>
      {| currentSqlQuery := currentSqlQuery s; verifiedStatus := verifiedStatus s;
         savingQuery := savingQuery s; loadingQueryResults := b |}
  | HandleSaveQuery _ _ =>
      {| currentSqlQuery := currentSqlQuery s; verifiedStatus := verifiedStatus s;
         savingQuery := b; loadingQueryResults := loadingQueryResults s |}
  end.

(** The busy flag of the other handler. *)
Definition other_busy (h : Closure) (s : State) : bool :=
  match h with
  | HandleRunQuery _ => savingQuery s
  | HandleSaveQuery _ _ => loadingQueryResults s
  end.

(** The toast a handler emits when its call has settled. *)
Definition outcome_toast (h : Closure) (o : Settled) : Toast :=
  match o, h with
  | Resolved _, HandleRunQuery _ =>
      {| variant := success; title := "Query executed!";
         description := None; action := None |}
  | Resolved _, HandleSaveQuery _ _ =>
      {| variant := success; title := "Saved!";
         description := Some "Your changes over the query were successfully applied";
         action := None |}
  | Rejected _, HandleRunQuery _ =>
      {| variant := destructive; title := "Ups! Something went wrong.";
         description := Some "There was a problem with running your query";
         action := Some {| altText := "Try again"; action_onClick := h |} |}
  | Rejected _, HandleSaveQuery _ _ =>
      {| variant := destructive; title := "Ups! Something went wrong.";
         description := Some "There was a problem with saving your query";
         action := Some {| altText := "Try again"; action_onClick := h |} |}
  end.

(** A task in flight is the rest of a handler whose call is in the log. *)
Definition handler_task (cs : list Call) (t : Task) : Prop :=
  exists h : Closure, first_await (invoke h) = Some t /\ In (call_of h) cs.

(** A success toast carries no action; a destructive toast carries the
    "Try again" action of a handler whose call is in the log. *)
Definition handler_toast (cs : list Call) (t : Toast) : Prop :=
  match variant t with
  | success => action t = None
  | destructive =>
      exists h : Closure,
        action t = Some {| altText := "Try again"; action_onClick := h |} /\
        In (call_of h) cs
  end.

(** What holds of the component in every state it can reach. *)
Definition consistent (w : World) : Prop :=
  Forall (handler_task (calls w)) (pending w) /\
  Forall (handler_toast (calls w)) (toasts w) /\
  length (calls w) = length (toasts w) + length (pending w) /\
  (loadingQueryResults (hooks w) = true -> 0 < in_flight is_execute w) /\
  (savingQuery (hooks w) = true -> 0 < in_flight is_patch w).

(** The text of the last edit among the events, [init] if there is none. *)
Definition last_sql (es : list Event) (init : string) : string :=
  fold_left (fun acc e => match e with EditSql v => v | _ => acc end) es init.

Definition last_status (es : list Event) (init : QueryStatus) : QueryStatus :=
  fold_left (fun acc e => match e with SelectStatus v => v | _ => acc end) es init.

(** The texts the editor reported, oldest first. *)
Definition typed_texts (es : list Event) : list string :=
  flat_map (fun e => match e with EditSql v => [v] | _ => [] end) es.


Definition one_if (b : bool) : nat := if b then 1 else 0.

(** Every call in flight settles, oldest first, the i-th with outcome [os i]. *)
Definition settle_all (os : nat -> Settled) (w : World) : World :=
  steps (map (fun i => Settle 0 (os i)) (seq 0 (length (pending w)))) w.


End Workspace.

(** ** Concrete review sessions *)

Module Scenario.

(** A two-valued instance of [QueryStatus]. *)
Inductive ReviewStatus : Type := Unverified | Verified.

Definition record : @Query ReviewStatus :=
  {| question := "How many users signed up?";
     question_date := "2023-08-01T10:00:00";
     nl_response := "One";
     username := "alice";
     sql_query := "SELECT 1";
     sql_query_result := JsNull;
     sql_error_message := None;
     status := Unverified;
     ai_process := [];
     last_updated := "2023-08-01T10:00:05" |}.

Definition with_result (r : JsVal) (e : option string) : @Query ReviewStatus :=
  {| question := question record;
     question_date := question_date record;
     nl_response := nl_response record;
     username := username record;
     sql_query := sql_query record;
     sql_query_result := r;
     sql_error_message := e;
     status := status record;
     ai_process := ai_process record;
     last_updated := last_updated record |}.

(** [{columns: ["x"], rows: [[2]]}] *)
Definition one_cell : JsVal :=
  JsObject [("columns", JsArray [JsString "x"]);
            ("rows", JsArray [JsArray [JsNumber 2]])].

(** A run is in flight: the Run button was clicked on the fresh session. *)
Definition running : @World ReviewStatus := step ClickRun (mount record).

(** A save is in flight. *)
Definition saving : @World ReviewStatus := step ClickSave (mount record).

(** The user has edited the text and marked the query verified. *)
Definition edited : @World ReviewStatus :=
  steps [EditSql "SELECT 2"; SelectStatus Verified] (mount record).

End Scenario.

(** * Properties *)

Section Properties.

Context {QueryStatus : Type}.

#[local] Abbreviation World := (@World QueryStatus).
#[local] Abbreviation Closure := (@Closure QueryStatus).
#[local] Abbreviation Task := (@Task QueryStatus).
#[local] Abbreviation Event := (@Event QueryStatus).
#[local] Abbreviation Query := (@Query QueryStatus).
#[local] Abbreviation State := (@State QueryStatus).
#[local] Abbreviation Toast := (@Toast QueryStatus).
#[local] Abbreviation Call := (@Call QueryStatus).

(** Split a conjunction into its parts and close those that hold by
    computation. *)
Ltac conjuncts :=
  repeat match goal with
         | |- _ /\ _ => split
         end;
  try reflexivity.

(** ** How a body runs *)

(** Running a body adds at most one task: the one of its first [await]. *)
Lemma run_pending (p : Prog unit) (w : World) :
  pending (run p w) =
  pending w ++ match first_await p with Some t => [t] | None => [] end.
Proof.
  revert w; induction p as [a | e | eff k IH | c k _]; intros w; cbn.
  - now rewrite app_nil_r.
  - now rewrite app_nil_r.
  - rewrite IH. now destruct eff.
  - reflexivity.
Qed.

Lemma run_calls (p : Prog unit) (w : World) :
  calls (run p w) =
  calls w ++ match first_await p with Some t => [task_call t] | None => [] end.
Proof.
  revert w; induction p as [a | e | eff k IH | c k _]; intros w; cbn.
  - now rewrite app_nil_r.
  - now rewrite app_nil_r.
  - rewrite IH. now destruct eff.
  - reflexivity.
Qed.

(** A body never touches the props. *)
Lemma run_query (p : Prog unit) (w : World) : query (run p w) = query w.
Proof.
  revert w; induction p as [a | e | eff k IH | c k _]; intros w; cbn;
    try reflexivity.
  rewrite IH. now destruct eff.
Qed.

Lemma finishes_with_spec (P : World -> Prop) (p : Prog unit) (w : World) :
  finishes_with P p w <->
  match first_await p with
  | Some t => forall o w', finishes_with P (task_resume t o) w'
  | None => P (run p w)
  end.
Proof.
  revert w; induction p as [a | e | eff k IH | c k _]; intros w; cbn;
    try reflexivity.
  apply IH.
Qed.

(** [finally]: when the block ends with a state setter or a toast, what that
    effect establishes holds at the end, on every path through the body. *)
Lemma finally_perform_last (P : World -> Prop) (eff : Effect) (p : Prog unit) :
  (forall w, P (apply_effect eff w)) ->
  forall w, finishes_with P (finally p (perform eff)) w.
Proof.
  intros HP.
  induction p as [a | e | eff' k IH | c k IH]; intros w; cbn.
  - apply HP.
  - apply HP.
  - apply IH.
  - intros o w'. apply IH.
Qed.

(** The task of each handler. *)
Lemma first_await_invoke (h : Closure) :
  exists t, first_await (invoke h) = Some t /\ task_call t = call_of h /\
            forall o, first_await (task_resume t o) = None.
Proof.
  destruct h as [sql | sql st]; eexists; (split; [reflexivity |]);
    (split; [reflexivity |]); intros [v | e]; reflexivity.
Qed.

(** Whatever the outcome, the resumed handler ends with its busy flag down. *)
Lemma invoke_finishes_idle (h : Closure) (w : World) :
  finishes_with (fun w' => busy h (hooks w') = false) (invoke h) w.
Proof.
  destruct h as [sql | sql st].
  - cbn [invoke handleRunQuery perform bind finishes_with].
    apply (finally_perform_last
             (fun w' => loadingQueryResults (hooks w') = false)
             (setLoadingQueryResults false)).
    reflexivity.
  - apply (finally_perform_last
             (fun w' => savingQuery (hooks w') = false)
             (setSavingQuery false)).
    reflexivity.
Qed.

(** The resumed handler writes neither draft field, starts no call and
    leaves the props and the other handler's flag alone. *)
Lemma resume_frame (h : Closure) (t : Task) (o : Settled) (w : World) :
  first_await (invoke h) = Some t ->
  let w' := run (task_resume t o) w in
  currentSqlQuery (hooks w') = currentSqlQuery (hooks w) /\
  verifiedStatus (hooks w') = verifiedStatus (hooks w) /\
  calls w' = calls w /\ pending w' = pending w /\ query w' = query w.
Proof.
  destruct h as [sql | sql st]; intros Ht; injection Ht as <-;
    destruct o as [v | e]; cbn; repeat split; reflexivity.
Qed.

Lemma invoke_task_quiet (h : Closure) (t : Task) :
  first_await (invoke h) = Some t -> quiet t.
Proof.
  intros Ht o w.
  destruct (resume_frame h t o w Ht) as (_ & _ & Hc & Hp & _).
  now split.
Qed.

(** The synchronous part of a handler: it raises its own flag and starts its
    call with the captured variables. *)
Lemma invoke_start (h : Closure) (w : World) :
  calls (run (invoke h) w) = calls w ++ [call_of h] /\
  map task_call (pending (run (invoke h) w)) =
    map task_call (pending w) ++ [call_of h] /\
  busy h (hooks (run (invoke h) w)) = true /\
  currentSqlQuery (hooks (run (invoke h) w)) = currentSqlQuery (hooks w) /\
  verifiedStatus (hooks (run (invoke h) w)) = verifiedStatus (hooks w) /\
  toasts (run (invoke h) w) = toasts w.
Proof.
  destruct h as [sql | sql st]; cbn; rewrite map_app; repeat split; reflexivity.
Qed.

(** *** Lists of tasks *)

Lemma nth_error_snoc {A} (l : list A) (x : A) :
  nth_error (l ++ [x]) (length l) = Some x.
Proof.
  induction l as [| y l IH]; cbn; [reflexivity | exact IH].
Qed.

Lemma remove_nth_snoc {A} (l : list A) (x : A) :
  remove_nth (length l) (l ++ [x]) = l.
Proof.
  induction l as [| y l IH]; cbn; [reflexivity | now rewrite IH].
Qed.

Lemma Forall_remove_nth {A} (P : A -> Prop) (n : nat) (l : list A) :
  Forall P l -> Forall P (remove_nth n l).
Proof.
  intros H; revert n; induction H as [| x l Hx Hl IH]; intros [| n]; cbn;
    auto using Forall_nil, Forall_cons.
Qed.

(** *** Every task in flight is the rest of a handler *)

Lemma step_keeps_tasks_quiet (e : Event) (w : World) :
  Forall quiet (pending w) -> Forall quiet (pending (step e w)).
Proof.
  intros Hw.
  assert (Hinv : forall h, Forall quiet (pending (run (invoke h) w))).
  { intros h. destruct (first_await_invoke h) as (t & Ht & _ & _).
    rewrite run_pending, Ht. apply Forall_app. split; [exact Hw |].
    constructor; [| constructor]. exact (invoke_task_quiet h t Ht). }
  destruct e as [value | value | | | n | n o | q]; cbn [step].
  - exact Hw.
  - exact Hw.
  - unfold click. destruct (disabled _); [exact Hw | apply Hinv].
  - unfold click. destruct (disabled _); [exact Hw | apply Hinv].
  - destruct (nth_error (toasts w) n) as [[vr ti de [a |]] |];
      [apply Hinv | exact Hw | exact Hw].
  - destruct (nth_error (pending w) n) as [t |] eqn:Hn; [| exact Hw].
    assert (Ht : quiet t).
    { apply nth_error_In in Hn. rewrite Forall_forall in Hw. now apply Hw. }
    destruct (Ht o {| query := query w; hooks := hooks w; calls := calls w;
                      pending := remove_nth n (pending w);
                      toasts := toasts w |}) as (_ & ->).
    cbn. now apply Forall_remove_nth.
  - exact Hw.
Qed.

Lemma steps_keep_tasks_quiet (es : list Event) (w : World) :
  Forall quiet (pending w) -> Forall quiet (pending (steps es w)).
Proof.
  revert w; induction es as [| e es IH]; intros w Hw; cbn; [exact Hw |].
  apply IH. now apply step_keeps_tasks_quiet.
Qed.

Lemma reachable_tasks_quiet (w : World) :
  reachable w -> Forall quiet (pending w).
Proof.
  intros (q & es & ->). apply steps_keep_tasks_quiet. constructor.
Qed.

Lemma steps_cons (e : Event) (es : list Event) (w : World) :
  steps (e :: es) w = steps es (step e w).
Proof. reflexivity. Qed.

Lemma steps_app (es1 es2 : list Event) (w : World) :
  steps (es1 ++ es2) w = steps es2 (steps es1 w).
Proof. unfold steps. apply fold_left_app. Qed.

Lemma reachable_step (e : Event) (w : World) :
  reachable w -> reachable (step e w).
Proof.
  intros (q & es & ->). exists q, (es ++ [e]). now rewrite steps_app.
Qed.

(** *** The two buttons *)

Lemma step_ClickRun (w : World) :
  step ClickRun w =
  if loadingQueryResults (hooks w) then w
  else run (handleRunQuery (currentSqlQuery (hooks w))) w.
Proof. reflexivity. Qed.

Lemma step_ClickSave (w : World) :
  step ClickSave w =
  if savingQuery (hooks w) then w
  else run (handleSaveQuery (currentSqlQuery (hooks w)) (verifiedStatus (hooks w))) w.
Proof. reflexivity. Qed.

(** ** The handlers, the buttons and the results area *)

(** C2: every invocation of the run handler and of the save handler suspends
    in one collaborator call, and when that call settles, resolved or rejected,
    the handler runs to its end and leaves its busy flag
    ([loadingQueryResults], respectively [savingQuery]) false, in whatever
    state the component is by then. *)
Theorem busy_flag_reset_on_both_paths (h : Closure) (w : World) :
  exists t : Task,
    pending (run (invoke h) w) = pending w ++ [t] /\
    task_call t = call_of h /\
    forall (o : Settled) (w' : World),
      busy h (hooks (run (task_resume t o) w')) = false /\
      pending (run (task_resume t o) w') = pending w'.
Proof.
  destruct (first_await_invoke h) as (t & Ht & Hc & Hend).
  exists t. split; [| split; [exact Hc |]].
  - rewrite run_pending, Ht. reflexivity.
  - intros o w'. split.
    + pose proof (invoke_finishes_idle h w) as H.
      apply finishes_with_spec in H. rewrite Ht in H.
      specialize (H o w'). apply finishes_with_spec in H.
      now rewrite Hend in H.
    + rewrite run_pending, Hend. apply app_nil_r.
Qed.

(** C8: when the call of [onExecuteQuery] resolves, with whatever value and
    whatever record the component holds by then (a populated
    [sql_error_message] included), the run handler emits exactly one toast,
    the success one, which carries no action; the destructive toast with the
    retry action is what it emits when the call rejects. *)
Theorem resolved_run_emits_success_only (sql : string) (w : World) :
  exists t : Task,
    pending (run (handleRunQuery sql) w) = pending w ++ [t] /\
    (forall (v : JsVal) (w' : World),
        toasts (run (task_resume t (Resolved v)) w') =
        toasts w' ++ [{| variant := success;
                         title := "Query executed!";
                         description := None;
                         action := None |}]) /\
    (forall (e : JsVal) (w' : World),
        exists f : Toast,
          toasts (run (task_resume t (Rejected e)) w') = toasts w' ++ [f] /\
          is_failure_toast_of (HandleRunQuery sql) f).
Proof.
  eexists. split; [reflexivity |]. split.
  - intros v w'. reflexivity.
  - intros e w'. eexists. split; [reflexivity |]. split; reflexivity.
Qed.

(** C5: when the call of [onPatchQuery] rejects, the save handler emits one
    destructive toast carrying the retry action, leaves [currentSqlQuery] and
    [verifiedStatus] as they are, leaves [savingQuery] false, and changes
    nothing else: no call is started, the props and the run flag are as
    before.  Starting the save had only raised [savingQuery] and recorded the
    call. *)
Theorem rejected_save_keeps_draft (sql : string) (st : QueryStatus) (w : World) :
  exists t : Task,
    pending (run (handleSaveQuery sql st) w) = pending w ++ [t] /\
    hooks (run (handleSaveQuery sql st) w) =
      {| currentSqlQuery := currentSqlQuery (hooks w);
         verifiedStatus := verifiedStatus (hooks w);
         savingQuery := true;
         loadingQueryResults := loadingQueryResults (hooks w) |} /\
    forall (e : JsVal) (w' : World),
      let w'' := run (task_resume t (Rejected e)) w' in
      (exists f : Toast,
          toasts w'' = toasts w' ++ [f] /\
          is_failure_toast_of (HandleSaveQuery sql st) f) /\
      hooks w'' =
        {| currentSqlQuery := currentSqlQuery (hooks w');
           verifiedStatus := verifiedStatus (hooks w');
           savingQuery := false;
           loadingQueryResults := loadingQueryResults (hooks w') |} /\
      calls w'' = calls w' /\ pending w'' = pending w' /\ query w'' = query w'.
Proof.
  eexists. split; [reflexivity |]. split; [reflexivity |].
  intros e w'. cbn. split; [| repeat split; reflexivity].
  eexists. split; [reflexivity |]. split; reflexivity.
Qed.

(** C3: after a rejected call the handler emits a toast whose action, clicked
    in any later state of the component, starts the call of the failed attempt
    again: same SQL text, and for a save the same status, as the closure
    captured them, whatever the draft holds at the time of the click. *)
Theorem retry_replays_original_inputs (h : Closure) (w : World) :
  exists t : Task,
    pending (run (invoke h) w) = pending w ++ [t] /\
    calls (run (invoke h) w) = calls w ++ [call_of h] /\
    forall (e : JsVal) (w1 : World),
    exists f : Toast,
      toasts (run (task_resume t (Rejected e)) w1) = toasts w1 ++ [f] /\
      forall (w2 : World) (n : nat),
        nth_error (toasts w2) n = Some f ->
        calls (step (ClickToastAction n) w2) = calls w2 ++ [call_of h].
Proof.
  destruct h as [sql | sql st].
  - eexists. split; [reflexivity |]. split; [reflexivity |].
    intros e w1. eexists. split; [reflexivity |].
    intros w2 n Hn. cbn [step]. rewrite Hn. reflexivity.
  - eexists. split; [reflexivity |]. split; [reflexivity |].
    intros e w1. eexists. split; [reflexivity |].
    intros w2 n Hn. cbn [step]. rewrite Hn. reflexivity.
Qed.

(** C4: a click on the enabled Save button calls [onPatchQuery] with the
    [currentSqlQuery] and [verifiedStatus] of the draft at that moment; when
    the call resolves, also after the parent has passed down any other record,
    the draft still holds exactly the values sent, the success toast is
    emitted and [savingQuery] is false. *)
Theorem save_sends_draft_and_keeps_it (w : World) (v : JsVal) (stale : Query) :
  savingQuery (hooks w) = false ->
  let sent := {| patch_sql_query := currentSqlQuery (hooks w);
                 patch_query_status := verifiedStatus (hooks w) |} in
  let w1 := step ClickSave w in
  let w2 := steps [Rerender stale;
                   Settle (length (pending w)) (Resolved v);
                   Rerender stale] w1 in
  calls w1 = calls w ++ [onPatchQuery sent] /\
  calls w2 = calls w1 /\
  currentSqlQuery (hooks w2) = patch_sql_query sent /\
  verifiedStatus (hooks w2) = patch_query_status sent /\
  savingQuery (hooks w2) = false /\
  toasts w2 =
    toasts w ++ [{| variant := success;
                    title := "Saved!";
                    description :=
                      Some "Your changes over the query were successfully applied";
                    action := None |}].
Proof.
  intros Hidle. cbn zeta.
  unfold steps. cbn [fold_left]. rewrite step_ClickSave, Hidle.
  cbn. rewrite nth_error_snoc. cbn. repeat split; reflexivity.
Qed.

(** C10: a click on the enabled Run button calls [onExecuteQuery] with the
    [currentSqlQuery] of that moment, and no sequence of edits of the SQL text
    made while the call is in flight changes the calls started or the tasks
    in flight: the argument of the started call stays what it was. *)
Theorem run_argument_fixed_at_invocation (w : World) (edits : list string) :
  loadingQueryResults (hooks w) = false ->
  let w1 := step ClickRun w in
  let w2 := steps (map EditSql edits) w1 in
  calls w1 = calls w ++ [onExecuteQuery (currentSqlQuery (hooks w))] /\
  map task_call (pending w1) =
    map task_call (pending w) ++ [onExecuteQuery (currentSqlQuery (hooks w))] /\
  calls w2 = calls w1 /\
  pending w2 = pending w1.
Proof.
  intros Hidle. cbn zeta.
  assert (Hedits : forall u : World,
             calls (steps (map EditSql edits) u) = calls u /\
             pending (steps (map EditSql edits) u) = pending u).
  { induction edits as [| value edits IH]; intros u; [now split |].
    cbn [map]. rewrite steps_cons.
    destruct (IH (step (EditSql value) u)) as (-> & ->).
    now split. }
  rewrite step_ClickRun, Hidle.
  destruct (invoke_start (HandleRunQuery (currentSqlQuery (hooks w))) w)
    as (Hc & Hp & _).
  split; [exact Hc |]. split; [exact Hp |]. apply Hedits.
Qed.

(** C6: [handleSqlChange] and [handleVerifyChange] write their own draft
    field and nothing else: no call is started, no toast is emitted, both busy
    flags and the other field are kept.  In every state the component can
    reach, an event starts a call only if it invokes the run or the save
    handler (the Run button, the Save button, the retry action of a toast). *)
Theorem edits_trigger_no_activity (w : World) :
  (forall value : string,
      hooks (step (EditSql value) w) =
        {| currentSqlQuery := value;
           verifiedStatus := verifiedStatus (hooks w);
           savingQuery := savingQuery (hooks w);
           loadingQueryResults := loadingQueryResults (hooks w) |} /\
      calls (step (EditSql value) w) = calls w /\
      pending (step (EditSql value) w) = pending w /\
      toasts (step (EditSql value) w) = toasts w) /\
  (forall value : QueryStatus,
      hooks (step (SelectStatus value) w) =
        {| currentSqlQuery := currentSqlQuery (hooks w);
           verifiedStatus := value;
           savingQuery := savingQuery (hooks w);
           loadingQueryResults := loadingQueryResults (hooks w) |} /\
      calls (step (SelectStatus value) w) = calls w /\
      pending (step (SelectStatus value) w) = pending w /\
      toasts (step (SelectStatus value) w) = toasts w) /\
  (forall e : Event,
      reachable w ->
      is_run_or_save_action e = false ->
      calls (step e w) = calls w).
Proof.
  split; [| split].
  - intros value. repeat split; reflexivity.
  - intros value. repeat split; reflexivity.
  - intros e Hw He.
    destruct e as [value | value | | | n | n o | q]; try discriminate He;
      try reflexivity.
    cbn [step]. destruct (nth_error (pending w) n) as [t |] eqn:Hn;
      [| reflexivity].
    pose proof (reachable_tasks_quiet w Hw) as Hq.
    rewrite Forall_forall in Hq.
    destruct (Hq t (nth_error_In _ _ Hn) o
                {| query := query w; hooks := hooks w; calls := calls w;
                   pending := remove_nth n (pending w);
                   toasts := toasts w |}) as (-> & _).
    reflexivity.
Qed.

(** C1 (as the code has it): the guard is the disabled button.  The Run
    button is disabled exactly while [loadingQueryResults] is true and a click
    on it then changes nothing and starts no call; enabled, the click runs the
    run handler on the current draft.  Likewise the Save button with
    [savingQuery] and the save handler. *)
Theorem guard_is_the_disabled_button (w : World) :
  disabled (render_run_button (hooks w)) = loadingQueryResults (hooks w) /\
  disabled (render_save_button (hooks w)) = savingQuery (hooks w) /\
  (if loadingQueryResults (hooks w) then step ClickRun w = w
   else step ClickRun w = run (handleRunQuery (currentSqlQuery (hooks w))) w) /\
  (if savingQuery (hooks w) then step ClickSave w = w
   else step ClickSave w =
        run (handleSaveQuery (currentSqlQuery (hooks w)) (verifiedStatus (hooks w))) w).
Proof.
  split; [reflexivity |]. split; [reflexivity |]. split.
  - rewrite step_ClickRun.
    destruct (loadingQueryResults (hooks w)); reflexivity.
  - rewrite step_ClickSave.
    destruct (savingQuery (hooks w)); reflexivity.
Qed.

(** C7 (as the code has it): for a record whose [sql_query_result] has its
    declared type, the results area renders exactly one of three things: the
    loading indicator exactly when [loadingQueryResults] is true; otherwise
    the error banner, showing [sql_error_message], exactly when that message
    is a non-empty string; otherwise the results box, which holds the empty
    state exactly when [sql_query_result] is [null] and the table if not. *)
Theorem results_view_three_way (q : Query) (s : State) :
  well_typed_result (sql_query_result q) = true ->
  exists v : ResultsView,
    render_results q s = Normal v /\
    exactly_one (shows_loading v) (shows_error_banner v)
                (shows_results_or_empty v) = true /\
    shows_loading v = loadingQueryResults s /\
    shows_error_banner v =
      negb (loadingQueryResults s) && truthy_message (sql_error_message q) /\
    shows_results_or_empty v =
      negb (loadingQueryResults s) && negb (truthy_message (sql_error_message q)) /\
    (forall m : string, v = SqlErrorBanner m -> sql_error_message q = Some m) /\
    (forall (t : QueryResults) (a : AnswerSlot),
        v = ResultsPanel t a -> (t = NoResults <-> sql_query_result q = JsNull)).
Proof.
  intros Hty. unfold render_results.
  destruct (loadingQueryResults s).
  { eexists. split; [reflexivity |]. cbn. conjuncts; intros; discriminate. }
  assert (Hbox : exists t a,
             render_query_results (sql_query_result q) = Normal t /\
             render_answer (sql_query_result q) (nl_response q) = a /\
             (t = NoResults <-> sql_query_result q = JsNull)).
  { unfold render_query_results.
    destruct (sql_query_result q) as [| | | b | n | str | items | fields];
      try discriminate Hty.
    - do 2 eexists. split; [reflexivity |]. split; [reflexivity |]. now split.
    - cbn in Hty |- *.
      destruct (own_property "columns" fields)
        as [[| | | b | n | str | keys | fs] |]; try discriminate Hty.
      do 2 eexists. split; [reflexivity |]. split; [reflexivity |].
      split; intros; discriminate. }
  destruct Hbox as (t & a & Ht & Ha & Hnull).
  destruct (truthy_message (sql_error_message q)) eqn:Hm.
  - destruct (sql_error_message q) as [m |]; [| discriminate Hm].
    eexists. split; [reflexivity |]. cbn. conjuncts; try (intros; discriminate).
    intros m' Hv. injection Hv as <-. reflexivity.
  - rewrite Ht, Ha. eexists. split; [reflexivity |]. cbn.
    conjuncts; try (intros; discriminate).
    intros t' a' Hv. injection Hv as <- <-. exact Hnull.
Qed.

(** C9 (as the code has it): when nothing is loading and no error message is
    shown, the empty state "No Results" is rendered exactly when
    [sql_query_result] is [null].  Any other value enters the table branch,
    which reads its [columns]: if that is an array the table is rendered and
    the answer block with [nl_response] is shown; if not ([undefined], a
    value without [columns]) the render throws and nothing is shown. *)
Theorem no_results_only_for_null (q : Query) (s : State) :
  loadingQueryResults s = false ->
  truthy_message (sql_error_message q) = false ->
  (sql_query_result q = JsNull ->
   render_results q s = Normal (ResultsPanel NoResults (Falsy JsNull))) /\
  (forall a : AnswerSlot,
      render_results q s = Normal (ResultsPanel NoResults a) ->
      sql_query_result q = JsNull) /\
  (sql_query_result q <> JsNull ->
   match get (sql_query_result q) "columns" with
   | Normal (JsArray keys) =>
       exists rows : JsVal,
         get (sql_query_result q) "rows" = Normal rows /\
         render_results q s =
           Normal (ResultsPanel (SqlResultsTable (map column_of keys) rows)
                                (Answer (nl_response q)))
   | _ => exists m : string, render_results q s = TypeError m
   end).
Proof.
  intros Hload Herr. unfold render_results. rewrite Hload, Herr.
  unfold render_query_results.
  destruct (sql_query_result q) as [| | | b | n | str | items | fields] eqn:Hr;
    cbn; (split; [try discriminate; reflexivity |]);
    (split; [try (intros a Ha; discriminate Ha); try reflexivity |]);
    try (intros _; eexists; reflexivity); try (intros H; now elim H).
  - intros a Ha.
    destruct (own_property "columns" fields) as [[| | | b | n | str | keys | fs] |];
      discriminate Ha.
  - intros _.
    destruct (own_property "columns" fields) as [[| | | b | n | str | keys | fs] |];
      cbn; try (eexists; reflexivity).
    eexists. split; reflexivity.
Qed.

(** ** The component over whole sessions *)

(** *** The two halves of a handler, as worlds *)

Lemma start_world (h : Closure) (t : Task) (w : World) :
  first_await (invoke h) = Some t ->
  run (invoke h) w =
    {| query := query w; hooks := set_busy h true (hooks w);
       calls := calls w ++ [call_of h];
       pending := pending w ++ [t];
       toasts := toasts w |}.
Proof.
  destruct h as [sql | sql st]; intros Ht; injection Ht as <-; reflexivity.
Qed.

Lemma resume_world (h : Closure) (t : Task) (o : Settled) (w : World) :
  first_await (invoke h) = Some t ->
  run (task_resume t o) w =
    {| query := query w; hooks := set_busy h false (hooks w);
       calls := calls w;
       pending := pending w;
       toasts := toasts w ++ [outcome_toast h o] |}.
Proof.
  destruct h as [sql | sql st]; intros Ht; injection Ht as <-;
    destruct o as [v | e]; reflexivity.
Qed.

Lemma task_call_of (h : Closure) (t : Task) :
  first_await (invoke h) = Some t -> task_call t = call_of h.
Proof.
  destruct h as [sql | sql st]; intros Ht; injection Ht as <-; reflexivity.
Qed.

(** *** Counting tasks *)

Lemma count_snoc {A} (f : A -> bool) (l : list A) (x : A) :
  length (filter f (l ++ [x])) = length (filter f l) + one_if (f x).
Proof.
  rewrite filter_app, length_app. cbn. now destruct (f x).
Qed.

Lemma count_remove_nth {A} (f : A -> bool) (n : nat) (l : list A) (x : A) :
  nth_error l n = Some x ->
  length (filter f l) = length (filter f (remove_nth n l)) + one_if (f x).
Proof.
  revert n; induction l as [| y l IH]; intros [| n] Hn; cbn in *;
    try discriminate.
  - injection Hn as ->. destruct (f x); cbn; lia.
  - specialize (IH n Hn). destruct (f y); cbn; lia.
Qed.

Lemma length_remove_nth {A} (n : nat) (l : list A) (x : A) :
  nth_error l n = Some x -> length l = S (length (remove_nth n l)).
Proof.
  revert n; induction l as [| y l IH]; intros [| n] Hn; cbn in *;
    try discriminate; [reflexivity |].
  now rewrite (IH n Hn).
Qed.

(** *** The log of calls only grows *)

Lemma handler_task_mono (cs : list Call) (c : Call) (t : Task) :
  handler_task cs t -> handler_task (cs ++ [c]) t.
Proof.
  intros (h & Ht & Hin). exists h. split; [exact Ht |].
  apply in_or_app. now left.
Qed.

Lemma handler_toast_mono (cs : list Call) (c : Call) (t : Toast) :
  handler_toast cs t -> handler_toast (cs ++ [c]) t.
Proof.
  unfold handler_toast. destruct (variant t); [trivial |].
  intros (h & Ha & Hin). exists h. split; [exact Ha |].
  apply in_or_app. now left.
Qed.

Lemma outcome_toast_ok (cs : list Call) (h : Closure) (o : Settled) :
  In (call_of h) cs -> handler_toast cs (outcome_toast h o).
Proof.
  intros Hin. destruct h as [sql | sql st], o as [v | e]; cbn;
    try reflexivity; eexists; (split; [reflexivity | exact Hin]).
Qed.

(** *** The invariant *)

Lemma consistent_mount (q : Query) : consistent (mount q).
Proof.
  repeat split; cbn; try constructor; discriminate.
Qed.

Lemma consistent_invoke (h : Closure) (w : World) :
  consistent w -> consistent (run (invoke h) w).
Proof.
  intros (Htasks & Htoasts & Hlen & Hrun & Hsave).
  destruct (first_await_invoke h) as (t & Ht & Hc & _).
  rewrite (start_world h t w Ht).
  assert (Hin : In (call_of h) (calls w ++ [call_of h])).
  { apply in_or_app. right. now left. }
  unfold consistent, in_flight in *. cbn [calls pending toasts hooks].
  split; [| split; [| split; [| split]]].
  - apply Forall_app. split.
    + eapply Forall_impl; [| exact Htasks]. intros t'. apply handler_task_mono.
    + constructor; [| constructor]. exists h. now split.
  - eapply Forall_impl; [| exact Htoasts]. intros t'. apply handler_toast_mono.
  - rewrite !length_app. cbn. lia.
  - rewrite count_snoc, Hc. destruct h as [sql | sql st]; cbn.
    + intros _. lia.
    + intros Hl. specialize (Hrun Hl). lia.
  - rewrite count_snoc, Hc. destruct h as [sql | sql st]; cbn.
    + intros Hs. specialize (Hsave Hs). lia.
    + intros _. lia.
Qed.

Lemma consistent_settle (n : nat) (o : Settled) (t : Task) (w : World) :
  consistent w ->
  nth_error (pending w) n = Some t ->
  consistent (run (task_resume t o)
                  {| query := query w; hooks := hooks w; calls := calls w;
                     pending := remove_nth n (pending w); toasts := toasts w |}).
Proof.
  intros (Htasks & Htoasts & Hlen & Hrun & Hsave) Hn.
  assert (Ht : handler_task (calls w) t).
  { rewrite Forall_forall in Htasks. apply Htasks. eapply nth_error_In, Hn. }
  destruct Ht as (h & Ht & Hin).
  rewrite (resume_world h t o _ Ht).
  pose proof (task_call_of h t Ht) as Hc.
  pose proof (count_remove_nth (fun t => is_execute (task_call t)) n _ t Hn) as Hexe.
  pose proof (count_remove_nth (fun t => is_patch (task_call t)) n _ t Hn) as Hpat.
  cbn beta in Hexe, Hpat. rewrite Hc in Hexe, Hpat.
  unfold consistent, in_flight in *. cbn [calls pending toasts hooks].
  split; [| split; [| split; [| split]]].
  - now apply Forall_remove_nth.
  - apply Forall_app. split; [exact Htoasts |].
    constructor; [| constructor]. now apply outcome_toast_ok.
  - rewrite length_app. cbn. rewrite (length_remove_nth n _ t Hn) in Hlen. lia.
  - destruct h as [sql | sql st]; cbn in *.
    + discriminate.
    + intros Hl. specialize (Hrun Hl). lia.
  - destruct h as [sql | sql st]; cbn in *.
    + intros Hs. specialize (Hsave Hs). lia.
    + discriminate.
Qed.

Lemma consistent_step (e : Event) (w : World) :
  consistent w -> consistent (step e w).
Proof.
  intros Hw.
  destruct e as [value | value | | | n | n o | q]; cbn [step].
  - exact Hw.
  - exact Hw.
  - unfold click. destruct (disabled _); [exact Hw | now apply consistent_invoke].
  - unfold click. destruct (disabled _); [exact Hw | now apply consistent_invoke].
  - destruct (nth_error (toasts w) n) as [[vr ti de [a |]] |];
      [now apply consistent_invoke | exact Hw | exact Hw].
  - destruct (nth_error (pending w) n) as [t |] eqn:Hn; [| exact Hw].
    now apply consistent_settle.
  - exact Hw.
Qed.

Lemma consistent_steps (es : list Event) (w : World) :
  consistent w -> consistent (steps es w).
Proof.
  revert w; induction es as [| e es IH]; intros w Hw; [exact Hw |].
  rewrite steps_cons. apply IH. now apply consistent_step.
Qed.

Lemma reachable_consistent (w : World) : reachable w -> consistent w.
Proof.
  intros (q & es & ->). apply consistent_steps, consistent_mount.
Qed.

(** *** What one event does to the draft and to the log *)

Lemma set_busy_draft (h : Closure) (b : bool) (s : State) :
  currentSqlQuery (set_busy h b s) = currentSqlQuery s /\
  verifiedStatus (set_busy h b s) = verifiedStatus s.
Proof. destruct h; split; reflexivity. Qed.

Lemma step_draft (e : Event) (w : World) :
  consistent w ->
  currentSqlQuery (hooks (step e w)) =
    match e with EditSql v => v | _ => currentSqlQuery (hooks w) end /\
  verifiedStatus (hooks (step e w)) =
    match e with SelectStatus v => v | _ => verifiedStatus (hooks w) end.
Proof.
  intros (Htasks & _).
  assert (Hinv : forall h,
             currentSqlQuery (hooks (run (invoke h) w)) = currentSqlQuery (hooks w) /\
             verifiedStatus (hooks (run (invoke h) w)) = verifiedStatus (hooks w)).
  { intros h. destruct (first_await_invoke h) as (t & Ht & _).
    rewrite (start_world h t w Ht). apply set_busy_draft. }
  destruct e as [value | value | | | n | n o | q]; cbn [step].
  - split; reflexivity.
  - split; reflexivity.
  - unfold click. destruct (disabled _); [now split | apply Hinv].
  - unfold click. destruct (disabled _); [now split | apply Hinv].
  - destruct (nth_error (toasts w) n) as [[vr ti de [a |]] |];
      [apply Hinv | now split | now split].
  - destruct (nth_error (pending w) n) as [t |] eqn:Hn; [| now split].
    rewrite Forall_forall in Htasks.
    destruct (Htasks t (nth_error_In _ _ Hn)) as (h & Ht & _).
    rewrite (resume_world h t o _ Ht). apply set_busy_draft.
  - split; reflexivity.
Qed.

Lemma steps_draft (es : list Event) (w : World) :
  consistent w ->
  currentSqlQuery (hooks (steps es w)) = last_sql es (currentSqlQuery (hooks w)) /\
  verifiedStatus (hooks (steps es w)) = last_status es (verifiedStatus (hooks w)).
Proof.
  revert w; induction es as [| e es IH]; intros w Hw; [now split |].
  rewrite steps_cons.
  destruct (IH (step e w) (consistent_step e w Hw)) as (-> & ->).
  destruct (step_draft e w Hw) as (-> & ->).
  split; reflexivity.
Qed.

(** An event starts no call, or one: with the text of the draft, or a call
    already in the log (the retry of a toast). *)
Lemma step_calls (e : Event) (w : World) :
  consistent w ->
  calls (step e w) = calls w \/
  exists c : Call,
    calls (step e w) = calls w ++ [c] /\
    (call_sql c = currentSqlQuery (hooks w) \/ In c (calls w)).
Proof.
  intros (Htasks & Htoasts & _).
  destruct e as [value | value | | | n | n o | q];
    try (left; reflexivity).
  - rewrite step_ClickRun.
    destruct (loadingQueryResults (hooks w)); [now left |].
    right. eexists. split; [reflexivity |]. now left.
  - rewrite step_ClickSave.
    destruct (savingQuery (hooks w)); [now left |].
    right. eexists. split; [reflexivity |]. now left.
  - cbn [step].
    destruct (nth_error (toasts w) n) as [[vr ti de [a |]] |] eqn:Hn;
      [| now left | now left].
    rewrite Forall_forall in Htoasts.
    pose proof (Htoasts _ (nth_error_In _ _ Hn)) as Hto.
    unfold handler_toast in Hto. cbn in Hto.
    destruct vr; [discriminate Hto |].
    destruct Hto as (h & Ha & Hin). injection Ha as ->. cbn.
    destruct (first_await_invoke h) as (t & Ht & _).
    rewrite (start_world h t w Ht). cbn.
    right. eexists. split; [reflexivity |]. now right.
  - cbn [step].
    destruct (nth_error (pending w) n) as [t |] eqn:Hn; [| now left].
    rewrite Forall_forall in Htasks.
    destruct (Htasks t (nth_error_In _ _ Hn)) as (h & Ht & _).
    rewrite (resume_world h t o _ Ht). now left.
Qed.

Lemma last_sql_snoc (es : list Event) (e : Event) (init : string) :
  last_sql (es ++ [e]) init =
  match e with EditSql v => v | _ => last_sql es init end.
Proof. unfold last_sql. now rewrite fold_left_app. Qed.

Lemma last_sql_typed (es : list Event) (init : string) :
  In (last_sql es init) (init :: typed_texts es).
Proof.
  induction es as [| e es IH] using rev_ind; [now left |].
  rewrite last_sql_snoc. unfold typed_texts. rewrite flat_map_app.
  fold (typed_texts es). cbn [flat_map].
  destruct e; rewrite ?app_nil_r; try exact IH.
  right. apply in_or_app. right. now left.
Qed.

(** *** One call of a kind at a time, as long as no toast is clicked *)



(** *** Settling what is in flight *)

Lemma settle_front (os : nat -> Settled) (k start : nat) (w : World) :
  consistent w ->
  length (pending w) = k ->
  let w' := steps (map (fun i => Settle 0 (os i)) (seq start k)) w in
  consistent w' /\ pending w' = [] /\ calls w' = calls w /\
  length (toasts w') = length (toasts w) + k.
Proof.
  revert start w; induction k as [| k IH]; intros start w Hw Hk; cbn zeta.
  - cbn [seq map steps fold_left].
    destruct (pending w) eqn:Hp; [| discriminate Hk].
    split; [exact Hw |]. split; [reflexivity |]. split; [reflexivity | lia].
  - cbn [seq map]. rewrite steps_cons.
    pose proof (consistent_step (Settle 0 (os start)) w Hw) as Hw1.
    destruct (pending w) as [| t rest] eqn:Hp; [discriminate Hk |].
    assert (Hstep : pending (step (Settle 0 (os start)) w) = rest /\
                    calls (step (Settle 0 (os start)) w) = calls w /\
                    length (toasts (step (Settle 0 (os start)) w)) =
                      S (length (toasts w))).
    { destruct Hw as (Htasks & _). rewrite Hp in Htasks.
      apply Forall_inv in Htasks. destruct Htasks as (h & Ht & _).
      cbn [step]. rewrite Hp. cbn [nth_error remove_nth].
      rewrite (resume_world h t _ _ Ht). cbn. rewrite length_app. cbn.
      repeat split. lia. }
    destruct Hstep as (Hp1 & Hc1 & Ht1).
    assert (Hk1 : length (pending (step (Settle 0 (os start)) w)) = k).
    { rewrite Hp1. cbn in Hk. lia. }
    destruct (IH (S start) _ Hw1 Hk1) as (Hc & Hnil & Hcalls & Hto).
    split; [exact Hc |]. split; [exact Hnil |].
    split; [now rewrite Hcalls |]. rewrite Hto, Ht1. lia.
Qed.

Lemma typed_texts_grow (es : list Event) (e : Event) (init x : string) :
  In x (init :: typed_texts es) -> In x (init :: typed_texts (es ++ [e])).
Proof.
  intros [-> | Hx]; [now left |]. right.
  unfold typed_texts. rewrite flat_map_app. apply in_or_app. now left.
Qed.

(** The table branch completes exactly on the values of the declared type. *)
Lemma render_query_results_completes (r : JsVal) :
  match render_query_results r with
  | Normal _ => well_typed_result r = true
  | TypeError _ => well_typed_result r = false
  end.
Proof.
  unfold render_query_results.
  destruct r as [| | | b | n | str | items | fields]; cbn; try reflexivity.
  destruct (own_property "columns" fields) as [[| | | b | n | str | keys | fs] |];
    reflexivity.
Qed.

(** ** Further properties of the component *)

(** X1: in every session, whatever was run, saved, failed, retried or
    re-rendered, the draft text is the last text the editor reported (the
    [sql_query] of the mounting record if there was none) and the draft status
    the last one selected; the handlers the two buttons carry are closed over
    exactly these values. *)
Theorem draft_is_last_edit (q : Query) (es : list Event) :
  currentSqlQuery (hooks (steps es (mount q))) = last_sql es (sql_query q) /\
  verifiedStatus (hooks (steps es (mount q))) = last_status es (status q) /\
  onClick (render_run_button (hooks (steps es (mount q)))) =
    HandleRunQuery (last_sql es (sql_query q)) /\
  onClick (render_save_button (hooks (steps es (mount q)))) =
    HandleSaveQuery (last_sql es (sql_query q)) (last_status es (status q)).
Proof.
  destruct (steps_draft es (mount q) (consistent_mount q)) as (Hsql & Hst).
  cbn [mount hooks mount_state currentSqlQuery verifiedStatus] in Hsql, Hst.
  split; [exact Hsql |]. split; [exact Hst |].
  unfold render_run_button, render_save_button. cbn [onClick].
  rewrite Hsql, Hst. split; reflexivity.
Qed.


(** X3: in every session, a raised busy flag has a call of its kind in
    flight: a disabled Run or Save button always waits for a call whose
    settlement lowers the flag again. *)
Theorem busy_flag_has_call_in_flight (q : Query) (es : list Event) :
  one_if (loadingQueryResults (hooks (steps es (mount q)))) <=
    in_flight is_execute (steps es (mount q)) /\
  one_if (savingQuery (hooks (steps es (mount q)))) <=
    in_flight is_patch (steps es (mount q)).
Proof.
  destruct (consistent_steps es (mount q) (consistent_mount q))
    as (_ & _ & _ & Hrun & Hsave).
  split.
  - destruct (loadingQueryResults _); cbn; [apply Hrun; reflexivity | lia].
  - destruct (savingQuery _); cbn; [apply Hsave; reflexivity | lia].
Qed.

(** X4: from every state of a session, once each call in flight has settled,
    resolved or rejected, nothing is in flight, both busy flags are false, no
    call was started on the way, and there are as many toasts as calls. *)
Theorem all_settled_is_idle (q : Query) (es : list Event) (os : nat -> Settled) :
  pending (settle_all os (steps es (mount q))) = [] /\
  loadingQueryResults (hooks (settle_all os (steps es (mount q)))) = false /\
  savingQuery (hooks (settle_all os (steps es (mount q)))) = false /\
  calls (settle_all os (steps es (mount q))) = calls (steps es (mount q)) /\
  length (toasts (settle_all os (steps es (mount q)))) =
    length (calls (steps es (mount q))).
Proof.
  pose proof (consistent_steps es (mount q) (consistent_mount q)) as Hw.
  destruct (settle_front os _ 0 _ Hw eq_refl) as (Hc & Hnil & Hcalls & Hto).
  fold (settle_all os (steps es (mount q))) in Hc, Hnil, Hcalls, Hto.
  destruct Hc as (_ & _ & _ & Hrun & Hsave).
  destruct Hw as (_ & _ & Hlen & _).
  unfold in_flight in Hrun, Hsave. rewrite Hnil in Hrun, Hsave. cbn in Hrun, Hsave.
  split; [exact Hnil |]. split; [| split; [| split; [exact Hcalls | lia]]].
  - destruct (loadingQueryResults _); [| reflexivity].
    specialize (Hrun eq_refl). lia.
  - destruct (savingQuery _); [| reflexivity].
    specialize (Hsave eq_refl). lia.
Qed.

(** X5: in every session, each call started is either still in flight or has
    produced exactly one toast: the calls are as many as the toasts and the
    tasks in flight together. *)
Theorem one_toast_per_settled_call (q : Query) (es : list Event) :
  length (calls (steps es (mount q))) =
  length (toasts (steps es (mount q))) + length (pending (steps es (mount q))).
Proof.
  pose proof (consistent_steps es (mount q) (consistent_mount q)) as Hw.
  destruct Hw as (_ & _ & Hlen & _).
  exact Hlen.
Qed.

(** X6: in every session, a success toast carries no action, and a
    destructive toast carries the action "Try again" of a run or save handler
    whose call was started before: the retry replays a call of the log. *)
Theorem toasts_are_handler_toasts (q : Query) (es : list Event) :
  Forall (handler_toast (calls (steps es (mount q)))) (toasts (steps es (mount q))).
Proof.
  pose proof (consistent_steps es (mount q) (consistent_mount q)) as Hw.
  destruct Hw as (_ & Htoasts & _).
  exact Htoasts.
Qed.

(** X7: the render of the component throws exactly when nothing is loading,
    no non-empty error message is present, and [sql_query_result] is neither
    [null] nor an object whose [columns] is an array; while loading or while
    an error message is shown a malformed result is never read. *)
Theorem render_throws_iff (q : Query) (s : State) :
  (exists m : string, QueryWorkspace q s = TypeError m) <->
  loadingQueryResults s = false /\
  truthy_message (sql_error_message q) = false /\
  well_typed_result (sql_query_result q) = false.
Proof.
  unfold QueryWorkspace, render_results.
  pose proof (render_query_results_completes (sql_query_result q)) as Hr.
  destruct (loadingQueryResults s); cbn.
  { split; [intros (m & Hm); discriminate Hm | intros (H & _); discriminate H]. }
  destruct (truthy_message (sql_error_message q)); cbn.
  { split; [intros (m & Hm); discriminate Hm | intros (_ & H & _); discriminate H]. }
  destruct (render_query_results (sql_query_result q)) as [t | m]; cbn.
  - split; [intros (m & Hm); discriminate Hm |].
    intros (_ & _ & H). rewrite Hr in H. discriminate H.
  - split; [now intros _ | intros _; now exists m].
Qed.

(** X8: in a rendered results box the answer block and the table go
    together, although one is guarded by truthiness and the other by
    [=== null]: with "No Results" there is no answer block, and with a table
    the answer block shows [nl_response]. *)
Theorem answer_iff_table (q : Query) (s : State) (t : QueryResults) (a : AnswerSlot) :
  render_results q s = Normal (ResultsPanel t a) ->
  (t = NoResults /\ a = Falsy JsNull /\ sql_query_result q = JsNull) \/
  (exists (cols : list ColumnDef) (data : JsVal),
      t = SqlResultsTable cols data /\ a = Answer (nl_response q) /\
      sql_query_result q <> JsNull).
Proof.
  unfold render_results.
  destruct (loadingQueryResults s); [discriminate |].
  destruct (truthy_message (sql_error_message q)); [discriminate |].
  unfold render_query_results, render_answer.
  destruct (sql_query_result q) as [| | | b | n | str | items | fields]; cbn;
    try discriminate.
  - intros H. injection H as <- <-. now left.
  - destruct (own_property "columns" fields) as [[| | | b | n | str | keys | fs] |];
      cbn; try discriminate.
    intros H. injection H as <- <-. right. do 2 eexists.
    split; [reflexivity |]. split; [reflexivity | discriminate].
Qed.

(** X9: for a result object whose [columns] is an array, the table gets one
    column per key, in order, whose id, header and accessor key are the key
    itself, and [rows] as its data: an empty [columns] gives a table with no
    column, not "No Results", and a missing [rows] gives [undefined] as data
    without throwing. *)
Theorem table_columns_follow_keys (fields : list (string * JsVal)) (keys : list JsVal) :
  own_property "columns" fields = Some (JsArray keys) ->
  exists cols : list ColumnDef,
    render_query_results (JsObject fields) =
      Normal (SqlResultsTable cols
                (match own_property "rows" fields with
                 | Some rows => rows
                 | None => JsUndefined
                 end)) /\
    length cols = length keys /\
    map id cols = keys /\ map header cols = keys /\ map accessorKey cols = keys.
Proof.
  intros Hcols. exists (map column_of keys).
  unfold render_query_results. cbn. rewrite Hcols. cbn.
  split; [reflexivity |]. split; [apply length_map |].
  rewrite !map_map. cbn. rewrite map_id. repeat split; reflexivity.
Qed.

(** X10: in every session, when a call in flight settles, the busy flag of
    its own kind becomes false and the flag of the other kind is left as it
    is: a run never enables or disables the Save button, nor a save the Run
    button. *)
Theorem settle_keeps_other_flag
    (q : Query) (es : list Event) (n : nat) (t : Task) (o : Settled) :
  nth_error (pending (steps es (mount q))) n = Some t ->
  if is_execute (task_call t)
  then loadingQueryResults (hooks (step (Settle n o) (steps es (mount q)))) = false /\
       savingQuery (hooks (step (Settle n o) (steps es (mount q)))) =
         savingQuery (hooks (steps es (mount q)))
  else savingQuery (hooks (step (Settle n o) (steps es (mount q)))) = false /\
       loadingQueryResults (hooks (step (Settle n o) (steps es (mount q)))) =
         loadingQueryResults (hooks (steps es (mount q))).
Proof.
  intros Hn.
  destruct (consistent_steps es (mount q) (consistent_mount q)) as (Htasks & _).
  rewrite Forall_forall in Htasks.
  destruct (Htasks t (nth_error_In _ _ Hn)) as (h & Ht & _).
  cbn [step]. rewrite Hn, (resume_world h t o _ Ht), (task_call_of h t Ht).
  destruct h as [sql | sql st]; cbn; split; reflexivity.
Qed.

(** X11: in every session, each call started carries a SQL text that the
    draft held: the [sql_query] of the mounting record or a text the editor
    reported.  Re-renders with other records and retries never put another
    text into a call. *)
Theorem calls_carry_typed_text (q : Query) (es : list Event) :
  Forall (fun c => In (call_sql c) (sql_query q :: typed_texts es))
         (calls (steps es (mount q))).
Proof.
  induction es as [| e es IH] using rev_ind; [constructor |].
  rewrite steps_app. cbn [steps fold_left].
  fold (steps es (mount q)).
  pose proof (consistent_steps es (mount q) (consistent_mount q)) as Hw.
  assert (IH' : Forall (fun c => In (call_sql c) (sql_query q :: typed_texts (es ++ [e])))
                       (calls (steps es (mount q)))).
  { eapply Forall_impl; [| exact IH]. intros c. apply typed_texts_grow. }
  destruct (step_calls e _ Hw) as [-> | (c & -> & Hc)]; [exact IH' |].
  apply Forall_app. split; [exact IH' |]. constructor; [| constructor].
  destruct Hc as [Hc | Hc].
  - rewrite Hc. destruct (steps_draft es (mount q) (consistent_mount q)) as (-> & _).
    apply typed_texts_grow. apply last_sql_typed.
  - rewrite Forall_forall in IH'. now apply IH'.
Qed.

End Properties.

(** * Concrete sessions *)

Import Scenario.

(** Scenario A of the specification: the user edits the text to
    [SELECT 2] and runs it; the record comes back with one cell. *)
Example scenario_A :
  let w := steps [EditSql "SELECT 2"; ClickRun;
                  Rerender (with_result one_cell None);
                  Settle 0 (Resolved JsUndefined)] (mount record) in
  calls w = [onExecuteQuery "SELECT 2"] /\
  loadingQueryResults (hooks w) = false /\
  render_results (query w) (hooks w) =
    Normal (ResultsPanel
              (SqlResultsTable [column_of (JsString "x")]
                               (JsArray [JsArray [JsNumber 2]]))
              (Answer "One")).
Proof. repeat split; reflexivity. Qed.

(** Scenario B: the record comes back with a SQL error. *)
Example scenario_B :
  let w := steps [ClickRun; Rerender (with_result JsNull (Some "syntax error"));
                  Settle 0 (Resolved JsUndefined)] (mount record) in
  render_results (query w) (hooks w) = Normal (SqlErrorBanner "syntax error") /\
  map variant (toasts w) = [success].
Proof. split; reflexivity. Qed.

(** Scenarios C and D: the save is rejected, the draft stays, and the retry
    sends the same payload again. *)
Example scenario_C_D :
  let w := steps [ClickSave; Settle 0 (Rejected JsNull)] edited in
  currentSqlQuery (hooks w) = "SELECT 2" /\
  verifiedStatus (hooks w) = Verified /\
  savingQuery (hooks w) = false /\
  map variant (toasts w) = [destructive] /\
  calls (step (ClickToastAction 0) w) =
    [onPatchQuery {| patch_sql_query := "SELECT 2"; patch_query_status := Verified |};
     onPatchQuery {| patch_sql_query := "SELECT 2"; patch_query_status := Verified |}].
Proof. repeat split; reflexivity. Qed.

(** C1, counterexample: with a run in flight and [loadingQueryResults] true,
    invoking the run handler starts a second call next to the first; the same
    for the save handler with [savingQuery] true.  The retry action of a toast
    reaches the handler that way while the Run button is disabled. *)
Lemma handler_invoked_while_busy_starts_second_call :
  loadingQueryResults (hooks running) = true /\
  map task_call (pending running) = [onExecuteQuery "SELECT 1"] /\
  map task_call (pending (run (invoke (HandleRunQuery "SELECT 1")) running)) =
    [onExecuteQuery "SELECT 1"; onExecuteQuery "SELECT 1"] /\
  savingQuery (hooks saving) = true /\
  map task_call (pending (run (invoke (HandleSaveQuery "SELECT 1" Unverified)) saving)) =
    [call_of (HandleSaveQuery "SELECT 1" Unverified);
     call_of (HandleSaveQuery "SELECT 1" Unverified)] /\
  loadingQueryResults
    (hooks (steps [ClickRun; Settle 0 (Rejected JsNull); ClickRun] (mount record))) = true /\
  map task_call
    (pending (steps [ClickRun; Settle 0 (Rejected JsNull); ClickRun; ClickToastAction 0]
                    (mount record))) =
    [onExecuteQuery "SELECT 1"; onExecuteQuery "SELECT 1"].
Proof. repeat split; reflexivity. Qed.

(** C3, on a session: the run fails, the user rewrites the text, then
    clicks "Try again": the call goes out with the text of the failed
    attempt. *)
Lemma retry_after_edit_witness :
  currentSqlQuery
    (hooks (steps [ClickRun; Settle 0 (Rejected JsNull); EditSql "SELECT 2"]
                  (mount record))) = "SELECT 2" /\
  calls (step (ClickToastAction 0)
              (steps [ClickRun; Settle 0 (Rejected JsNull); EditSql "SELECT 2"]
                     (mount record))) =
    [onExecuteQuery "SELECT 1"; onExecuteQuery "SELECT 1"].
Proof.
  split; [reflexivity |].
  destruct (retry_replays_original_inputs (HandleRunQuery "SELECT 1") (mount record))
    as (t & Hp & _ & Hretry).
  cbn in Hp. injection Hp as <-.
  destruct (Hretry JsNull (step (Rerender record) running)) as (f & Hf & Hclick).
  cbn in Hf. injection Hf as <-.
  exact (Hclick (steps [ClickRun; Settle 0 (Rejected JsNull); EditSql "SELECT 2"]
                       (mount record)) 0 eq_refl).
Defined.

(** C4, on a session: the edited draft is saved and kept. *)
Lemma save_sends_draft_witness :
  savingQuery (hooks edited) = false /\
  calls (step ClickSave edited) =
    [onPatchQuery {| patch_sql_query := "SELECT 2"; patch_query_status := Verified |}] /\
  calls (steps [Rerender record; Settle 0 (Resolved JsUndefined); Rerender record]
               (step ClickSave edited)) = calls (step ClickSave edited) /\
  currentSqlQuery
    (hooks (steps [Rerender record; Settle 0 (Resolved JsUndefined); Rerender record]
                  (step ClickSave edited))) = "SELECT 2" /\
  verifiedStatus
    (hooks (steps [Rerender record; Settle 0 (Resolved JsUndefined); Rerender record]
                  (step ClickSave edited))) = Verified /\
  savingQuery
    (hooks (steps [Rerender record; Settle 0 (Resolved JsUndefined); Rerender record]
                  (step ClickSave edited))) = false /\
  toasts (steps [Rerender record; Settle 0 (Resolved JsUndefined); Rerender record]
                (step ClickSave edited)) =
    [{| variant := success;
        title := "Saved!";
        description := Some "Your changes over the query were successfully applied";
        action := None |}].
Proof.
  split; [reflexivity |].
  exact (save_sends_draft_and_keeps_it edited JsUndefined record eq_refl).
Defined.

(** C10, on a session: two edits while the run is in flight. *)
Lemma run_argument_witness :
  loadingQueryResults (hooks (mount record)) = false /\
  calls (step ClickRun (mount record)) = [onExecuteQuery "SELECT 1"] /\
  map task_call (pending (step ClickRun (mount record))) = [onExecuteQuery "SELECT 1"] /\
  calls (steps [EditSql "SELECT 2"; EditSql "SELECT 3"] (step ClickRun (mount record))) =
    calls (step ClickRun (mount record)) /\
  pending (steps [EditSql "SELECT 2"; EditSql "SELECT 3"] (step ClickRun (mount record))) =
    pending (step ClickRun (mount record)).
Proof.
  split; [reflexivity |].
  exact (run_argument_fixed_at_invocation (mount record) ["SELECT 2"; "SELECT 3"] eq_refl).
Defined.

(** C6, on a session: with a run in flight, its settling starts no call. *)
Lemma settle_starts_no_call_witness :
  reachable running /\
  calls (step (Settle 0 (Resolved JsUndefined)) running) = calls running.
Proof.
  assert (Hr : reachable running) by (exists record, [ClickRun]; reflexivity).
  split; [exact Hr |].
  exact (proj2 (proj2 (edits_trigger_no_activity running))
               (Settle 0 (Resolved JsUndefined)) Hr eq_refl).
Defined.

(** C7, counterexample: nothing is loading and [sql_error_message] is the
    empty string, which is not [null]; no banner is rendered, the results box
    is. *)
Lemma empty_error_message_shows_no_banner :
  loadingQueryResults (mount_state (with_result JsNull (Some ""))) = false /\
  sql_error_message (with_result JsNull (Some "")) = Some "" /\
  render_results (with_result JsNull (Some "")) (mount_state (with_result JsNull (Some ""))) =
    Normal (ResultsPanel NoResults (Falsy JsNull)).
Proof. repeat split; reflexivity. Qed.

(** C7, on a record with a result and no error. *)
Lemma results_view_witness :
  well_typed_result (sql_query_result (with_result one_cell None)) = true /\
  exists v : ResultsView,
    render_results (with_result one_cell None) (mount_state record) = Normal v /\
    exactly_one (shows_loading v) (shows_error_banner v)
                (shows_results_or_empty v) = true /\
    shows_results_or_empty v = true.
Proof.
  split; [reflexivity |].
  destruct (results_view_three_way (with_result one_cell None) (mount_state record)
                                   eq_refl)
    as (v & Hv & Hone & _ & _ & Hbox & _).
  exists v. split; [exact Hv |]. split; [exact Hone | exact Hbox].
Defined.

(** C9, counterexample: [undefined] is not [null], so the table branch is
    entered; reading [columns] throws, and the guard of the answer block is
    falsy: no answer block is shown.  An object without [columns] throws at
    [map]. *)
Lemma undefined_result_shows_no_answer :
  strict_eq_null JsUndefined = false /\
  render_results (with_result JsUndefined None) (mount_state record) =
    TypeError "Cannot read properties of undefined" /\
  render_answer JsUndefined (nl_response record) = Falsy JsUndefined /\
  render_results (with_result (JsObject []) None) (mount_state record) =
    TypeError "Cannot read properties of undefined (reading 'map')".
Proof. repeat split; reflexivity. Qed.

(** C9, on a record with a result: the table and the answer block. *)
Lemma no_results_witness :
  loadingQueryResults (mount_state record) = false /\
  truthy_message (sql_error_message (with_result one_cell None)) = false /\
  render_results (with_result one_cell None) (mount_state record) =
    Normal (ResultsPanel
              (SqlResultsTable [column_of (JsString "x")]
                               (JsArray [JsArray [JsNumber 2]]))
              (Answer "One")).
Proof.
  split; [reflexivity |]. split; [reflexivity |].
  destruct (no_results_only_for_null (with_result one_cell None) (mount_state record)
                                     eq_refl eq_refl)
    as (_ & _ & Htable).
  destruct (Htable ltac:(discriminate)) as (rows & Hrows & Hrender).
  cbn in Hrows. injection Hrows as <-. exact Hrender.
Defined.


(** X8, on a record with a result. *)
Lemma answer_iff_table_witness :
  render_results (with_result one_cell None) (mount_state record) =
    Normal (ResultsPanel
              (SqlResultsTable [column_of (JsString "x")]
                               (JsArray [JsArray [JsNumber 2]]))
              (Answer "One")) /\
  exists (cols : list ColumnDef) (data : JsVal),
    SqlResultsTable [column_of (JsString "x")] (JsArray [JsArray [JsNumber 2]]) =
      SqlResultsTable cols data /\
    Answer "One" = Answer (nl_response (with_result one_cell None)).
Proof.
  split; [reflexivity |].
  destruct (answer_iff_table (with_result one_cell None) (mount_state record)
                             _ _ eq_refl)
    as [(Ht & _) | (cols & data & Ht & Ha & _)]; [discriminate Ht |].
  exists cols, data. split; [exact Ht | exact Ha].
Defined.

(** X9, on an object with an empty [columns] and no [rows]. *)
Lemma table_columns_witness :
  own_property "columns" [("columns", JsArray [])] = Some (JsArray []) /\
  exists cols : list ColumnDef,
    render_query_results (JsObject [("columns", JsArray [])]) =
      Normal (SqlResultsTable cols JsUndefined) /\
    length cols = 0.
Proof.
  split; [reflexivity |].
  destruct (table_columns_follow_keys [("columns", JsArray [])] [] eq_refl)
    as (cols & Hr & Hlen & _).
  exists cols. split; [exact Hr | exact Hlen].
Defined.

(** X10, on a session: a run and a save are in flight and the run settles. *)
Lemma settle_keeps_other_flag_witness :
  exists t : @Task ReviewStatus,
    nth_error (pending (steps [ClickRun; ClickSave] (mount record))) 0 = Some t /\
    loadingQueryResults
      (hooks (step (Settle 0 (Resolved JsUndefined))
                   (steps [ClickRun; ClickSave] (mount record)))) = false /\
    savingQuery
      (hooks (step (Settle 0 (Resolved JsUndefined))
                   (steps [ClickRun; ClickSave] (mount record)))) = true.
Proof.
  eexists. split; [reflexivity |].
  exact (settle_keeps_other_flag record [ClickRun; ClickSave] 0 _
                                 (Resolved JsUndefined) eq_refl).
Defined.
